(** * Thunderbots AI: pass generator, cherry-pick tactic and intents

    A shallow embedding of
      - [ai/passing/pass_generator.h]   (class [Passing::PassGenerator]),
      - [ai/hl/stp/tactic/cherry_pick_tactic.cpp] (class [CherryPickTactic]),
      - [ai/intent/intent.h]            (class [Intent]).

    Conventions.  A C++ [double] is a rational number ([Q]); comparisons of
    doubles are the comparisons of [Q].  A member function is a function of
    the object's fields; one that writes returns the new object.  A mutex
    protected member function runs atomically, so the background thread of
    the pass generator is an interleaving of whole operations. *)

From Stdlib Require Import QArith Qabs Qminmax Lqa ZArith NArith Lia List Bool Permutation Sorted.
From ITree Require Import ITree.
Import ListNotations.
Import ITreeNotations.

Local Open Scope Q_scope.

(* ================================================================== *)
(** ** Geometry and world value types *)
(* ================================================================== *)

Module Geom.

(** Modelled from the spec: [geom/point.h] is not among the sources; a
    point is a pair of coordinates (spec 1, "world/geometry value
    types"). *)
Record Point : Type := mkPoint { x : Q; y : Q }.

(** Modelled from the spec: [geom/rectangle.h] is not among the sources;
    a rectangle is axis aligned and given by its two extreme corners
    (spec 3, "a rectangle constraining where the receiver point ...
    must lie"). *)
Record Rectangle : Type :=
  mkRectangle { x_min : Q; x_max : Q; y_min : Q; y_max : Q }.



Definition containsPointb (r : Rectangle) (p : Point) : bool :=
  Qle_bool (x_min r) (x p) && Qle_bool (x p) (x_max r) &&
  Qle_bool (y_min r) (y p) && Qle_bool (y p) (y_max r).

End Geom.

Module WorldModel.
Import Geom.

(** Modelled from the spec: [ai/world/robot.h] is not among the sources; a
    robot has an id (pass_generator.h:90) and a position
    (cherry_pick_tactic.cpp:32). *)
Record Robot : Type := mkRobot { id : N; position : Point }.

(** Modelled from the spec: [ai/world/ball.h] is not among the sources;
    "ball position/velocity" (spec 3). *)
Record Ball : Type := mkBall { ball_position : Point; ball_velocity : Point }.

(** Modelled from the spec: [ai/world/world.h] is not among the sources; a
    world snapshot carries the ball, the robots of both teams and the
    field bounds (spec 3, "World snapshot"). *)
Record World : Type :=
  mkWorld { ball : Ball;
            friendly_team : list Robot;
            enemy_team : list Robot;
            field : Rectangle }.

End WorldModel.

(* ================================================================== *)
(** ** ai/passing: Pass and PassGenerator *)
(* ================================================================== *)

Module Passing.
Import Geom WorldModel.

(** Strict comparison of two doubles. *)
Definition Qltb (a b : Q) : bool := negb (Qle_bool b a).

(** Modelled from the spec: [ai/passing/pass.h] is not among the sources;
    the fields are those of spec 3, "Pass". *)
Record Pass : Type :=
  mkPass { passerPoint : Point;
           receiverPoint : Point;
           speed : Q;
           startTime : Q }.

(** [static const int NUM_PARAMS_TO_OPTIMIZE = 4]. *)
Definition NUM_PARAMS_TO_OPTIMIZE : nat := 4.

(** [std::array<double, NUM_PARAMS_TO_OPTIMIZE>]. *)
Record Array4 : Type := mkArray4 { a0 : Q; a1 : Q; a2 : Q; a3 : Q }.

(** [array[i]]; [None] out of range. *)
Definition at_ (a : Array4) (i : nat) : option Q :=
  match i with
  | 0%nat => Some (a0 a)
  | 1%nat => Some (a1 a)
  | 2%nat => Some (a2 a)
  | 3%nat => Some (a3 a)
  | _ => None
  end.

(** pass_generator.h:131-133. *)
Definition PASS_SPACE_WEIGHT : Q := 1 # 10.
Definition PASS_TIME_WEIGHT : Q := 1 # 10.
Definition PASS_SPEED_WEIGHT : Q := 1 # 100.

(** pass_generator.h:134-135, the member initialiser. *)
Definition optimizer_param_weights : Array4 :=
  mkArray4 PASS_SPACE_WEIGHT PASS_SPACE_WEIGHT PASS_TIME_WEIGHT PASS_SPEED_WEIGHT.

(** Modelled from the spec: the body of [convertPassToArray] is in
    [pass_generator.cpp], which is not among the sources; the layout is
    the one its declaration documents (pass_generator.h:184-186):
    [{receiver_point.x, receiver_point.y, pass_speed_m_per_s,
    pass_start_time}]. *)
Definition convertPassToArray (pass : Pass) : Array4 :=
  mkArray4 (x (receiverPoint pass)) (y (receiverPoint pass))
           (speed pass) (startTime pass).

(** The physical quantity a slot of the optimised vector holds. *)
Inductive Dimension : Type :=
| ReceiverX | ReceiverY | PassSpeed | PassStartTime.

(** The slot of each quantity in the array built by
    [convertPassToArray]. *)
Definition slot (d : Dimension) : nat :=
  match d with
  | ReceiverX => 0 | ReceiverY => 1 | PassSpeed => 2 | PassStartTime => 3
  end%nat.

Definition quantity (d : Dimension) (pass : Pass) : Q :=
  match d with
  | ReceiverX => x (receiverPoint pass)
  | ReceiverY => y (receiverPoint pass)
  | PassSpeed => speed pass
  | PassStartTime => startTime pass
  end.

(** The weight constant named after each quantity. *)
Definition weightFor (d : Dimension) : Q :=
  match d with
  | ReceiverX | ReceiverY => PASS_SPACE_WEIGHT
  | PassSpeed => PASS_SPEED_WEIGHT
  | PassStartTime => PASS_TIME_WEIGHT
  end.


(** *** The environment of a pass generator

    What the class takes from elsewhere: the rating behind [ratePass],
    the external optimiser, the random number generator and the
    configuration knobs. *)
Class Env : Type :=
  { (** [std::mt19937]: the state of the generator. *)
    Rng : Type;
    (** One draw of [std::uniform_real_distribution<>(0, 1)]. *)
    uniform01 : Rng -> Q * Rng;
    (** Modelled from the spec: the body of [ratePass] is not among the
        sources; the rating is "a supplied scoring oracle" (spec 2) of
        the pass and the world, which also reads the target region
        (spec 4.1, "conformance of the receiver point to the target
        region"). *)
    quality : World -> option Rectangle -> Pass -> Q;
    (** Modelled from the spec: [util/gradient_descent.h] is not among
        the sources; "given a vector of N real parameters and a scoring
        function, performs one local-search step" (spec 2), with the
        per-dimension weights it was constructed with. *)
    maximize : Array4 -> (Array4 -> Q) -> Array4 -> Array4;
    (** [getNumPassesToOptimize], [getNumPassesToKeepAfterPruning]. *)
    num_passes_to_optimize : nat;
    num_passes_to_keep_after_pruning : nat;
    (** Spec 6: "duplicate-merge tolerance". *)
    merge_tolerance : Q;
    (** Spec 4.1: "speed and start-time drawn from a reasonable
        operating range". *)
    min_pass_speed : Q;
    max_pass_speed : Q;
    min_start_time : Q;
    max_start_time : Q }.

Section Generator.
Context {env : Env}.

(** The data members of pass_generator.h:252-310; the mutexes and the
    thread handle have no state of their own here. *)
Record PassGenerator : Type :=
  mkPassGenerator
    { in_destructor : bool;
      world : World;
      updated_world : World;
      passer_point : Point;
      passer_robot_id : option N;
      target_region : option Rectangle;
      best_known_pass : Pass;
      passes_to_optimize : list Pass;
      random_num_gen : Rng }.

Definition with_world (w : World) (g : PassGenerator) : PassGenerator :=
  mkPassGenerator (in_destructor g) w (updated_world g) (passer_point g)
    (passer_robot_id g) (target_region g) (best_known_pass g)
    (passes_to_optimize g) (random_num_gen g).

Definition with_best_known_pass (p : Pass) (g : PassGenerator) : PassGenerator :=
  mkPassGenerator (in_destructor g) (world g) (updated_world g) (passer_point g)
    (passer_robot_id g) (target_region g) p
    (passes_to_optimize g) (random_num_gen g).

Definition with_passes (ps : list Pass) (g : PassGenerator) : PassGenerator :=
  mkPassGenerator (in_destructor g) (world g) (updated_world g) (passer_point g)
    (passer_robot_id g) (target_region g) (best_known_pass g)
    ps (random_num_gen g).

Definition with_rng (r : Rng) (g : PassGenerator) : PassGenerator :=
  mkPassGenerator (in_destructor g) (world g) (updated_world g) (passer_point g)
    (passer_robot_id g) (target_region g) (best_known_pass g)
    (passes_to_optimize g) r.

(** Modelled from the spec: the constructor's body is not among the
    sources; "population and best-known pass are created at
    construction (seeded with the empty/default pass)" (spec 3). *)
Definition defaultPass : Pass := mkPass (mkPoint 0 0) (mkPoint 0 0) 0 0.

(** Modelled from the spec: the constructor's body is not among the
    sources; it "takes an initial world snapshot and passer point"
    (spec 4.1); no target region and no passer id are set yet, and the
    population is filled by the first prune step. *)
Definition construct (w : World) (passer : Point) (seed : Rng) : PassGenerator :=
  mkPassGenerator false w w passer None None defaultPass [] seed.

(** Modelled from the spec: the body of [setWorld] is not among the
    sources; it "stores world into a pending slot" (spec 4.1). *)
Definition setWorld (w : World) (g : PassGenerator) : PassGenerator :=
  mkPassGenerator (in_destructor g) (world g) w (passer_point g)
    (passer_robot_id g) (target_region g) (best_known_pass g)
    (passes_to_optimize g) (random_num_gen g).

(** Modelled from the spec: the body of [setPasserPoint] is not among
    the sources; it "updates the shared passer point"; the candidates
    are refreshed at the start of the next iteration (spec 4.1). *)
Definition setPasserPoint (p : Point) (g : PassGenerator) : PassGenerator :=
  mkPassGenerator (in_destructor g) (world g) (updated_world g) p
    (passer_robot_id g) (target_region g) (best_known_pass g)
    (passes_to_optimize g) (random_num_gen g).

(** Modelled from the spec: the body of [setPasserRobotId] is not among
    the sources; it "updates the excluded receiver id" (spec 4.1). *)
Definition setPasserRobotId (robot_id : N) (g : PassGenerator) : PassGenerator :=
  mkPassGenerator (in_destructor g) (world g) (updated_world g) (passer_point g)
    (Some robot_id) (target_region g) (best_known_pass g)
    (passes_to_optimize g) (random_num_gen g).

(** Modelled from the spec: the body of [setTargetRegion] is not among
    the sources; it "updates the receiver-point constraint; empty
    clears the constraint" (spec 4.1). *)
Definition setTargetRegion (area : option Rectangle) (g : PassGenerator) : PassGenerator :=
  mkPassGenerator (in_destructor g) (world g) (updated_world g) (passer_point g)
    (passer_robot_id g) area (best_known_pass g)
    (passes_to_optimize g) (random_num_gen g).

(** Modelled from the spec: the body of [ratePass] is not among the
    sources; it rates the pass in the world of the running iteration
    (spec 4.1, "the quality function evaluated with the active
    world"). *)
Definition ratePass (g : PassGenerator) (pass : Pass) : Q :=
  quality (world g) (target_region g) pass.

(** Modelled from the spec: the body of [getBestPassSoFar] is not among
    the sources; it "returns a snapshot copy of the current best-known
    pass and its quality" (spec 4.1).  The class stores the pass only
    (pass_generator.h:300), so the quality is its rating at the time
    of the call. *)
Definition getBestPassSoFar (g : PassGenerator) : Pass * Q :=
  (best_known_pass g, ratePass g (best_known_pass g)).

(** Modelled from the spec: the body of [convertArrayToPass] is not
    among the sources; the layout and the passer point are those its
    declaration documents (pass_generator.h:193-199). *)
Definition convertArrayToPass (g : PassGenerator) (array : Array4) : Pass :=
  mkPass (passer_point g) (mkPoint (a0 array) (a1 array)) (a2 array) (a3 array).

(** Modelled from the spec: the body of [updatePasserPointOfAllPasses]
    is not among the sources; the passer field of every candidate is
    refreshed, the other "degrees of freedom are preserved"
    (spec 4.1). *)
Definition updatePasserPointOfAllPasses (new_passer_point : Point)
           (g : PassGenerator) : PassGenerator :=
  with_passes
    (map (fun p => mkPass new_passer_point (receiverPoint p) (speed p) (startTime p))
         (passes_to_optimize g)) g.

(** Modelled from the spec: the body of [comparePassQuality] is not
    among the sources; pass_generator.h:223 documents its result as
    [pass1.quality < pass2.quality]. *)
Definition comparePassQuality (g : PassGenerator) (pass1 pass2 : Pass) : bool :=
  Qltb (ratePass g pass1) (ratePass g pass2).

(** [a] and [b] differ by less than [tol]. *)
Definition within (tol a b : Q) : bool := Qltb (Qabs (a - b)) tol.

(** Modelled from the spec: the body of [passesEqual] is not among the
    sources; two candidates are duplicates "when their parameter
    vectors are within a small tolerance of each other in every
    dimension" (spec 4.1), "differ by less than the merge tolerance"
    (spec 8). *)
Definition passesEqual (pass1 pass2 : Pass) : bool :=
  let v1 := convertPassToArray pass1 in
  let v2 := convertPassToArray pass2 in
  within merge_tolerance (a0 v1) (a0 v2) &&
  within merge_tolerance (a1 v1) (a1 v2) &&
  within merge_tolerance (a2 v1) (a2 v2) &&
  within merge_tolerance (a3 v1) (a3 v2).

(** A draw of [std::uniform_real_distribution<>(lo, hi)] from a draw
    [u] of the unit interval. *)
Definition scaleTo (lo hi u : Q) : Q := lo + u * (hi - lo).

(** Modelled from the spec: the rectangle receiver points are drawn
    from, "the target region if set, else ... the field" (spec 4.1). *)
Definition samplingArea (g : PassGenerator) : Rectangle :=
  match target_region g with
  | Some area => area
  | None => field (world g)
  end.

(** Modelled from the spec: one freshly sampled candidate of
    [generatePasses], four draws of the generator (spec 4.1). *)
Definition generatePass (g : PassGenerator) (rng : Rng) : Pass * Rng :=
  let (ux, rng1) := uniform01 rng in
  let (uy, rng2) := uniform01 rng1 in
  let (us, rng3) := uniform01 rng2 in
  let (ut, rng4) := uniform01 rng3 in
  let area := samplingArea g in
  (mkPass (passer_point g)
          (mkPoint (scaleTo (x_min area) (x_max area) ux)
                   (scaleTo (y_min area) (y_max area) uy))
          (scaleTo min_pass_speed max_pass_speed us)
          (scaleTo min_start_time max_start_time ut),
   rng4).

(** Modelled from the spec: the body of [generatePasses] is not among
    the sources; "freshly sampled random candidates (receiver point
    drawn uniformly from the target region if set, else from the
    field; speed and start-time drawn from a reasonable operating
    range)" (spec 4.1). *)
Fixpoint generatePassesFrom (g : PassGenerator) (rng : Rng)
         (num_passes_to_gen : nat) : list Pass * Rng :=
  match num_passes_to_gen with
  | O => ([], rng)
  | S n =>
      let (p, rng1) := generatePass g rng in
      let (ps, rng2) := generatePassesFrom g rng1 n in
      (p :: ps, rng2)
  end.

Definition generatePasses (num_passes_to_gen : nat) (g : PassGenerator)
  : list Pass * PassGenerator :=
  let (ps, rng) := generatePassesFrom g (random_num_gen g) num_passes_to_gen in
  (ps, with_rng rng g).

(** Modelled from the spec: the body of [optimizePasses] is not among
    the sources; "for every candidate pass in the current population,
    run exactly one step of the external local-search optimizer
    against the quality function evaluated with the active world,
    producing a replacement candidate" (spec 4.1). *)
Definition optimizePasses (g : PassGenerator) : PassGenerator :=
  with_passes
    (map (fun p =>
            convertArrayToPass g
              (maximize optimizer_param_weights
                        (fun a => ratePass g (convertArrayToPass g a))
                        (convertPassToArray p)))
         (passes_to_optimize g)) g.

(** Modelled from the spec: the sort of [pruneAndReplacePasses], by
    decreasing quality ("sort/compare candidates by quality", spec 4.1);
    a pass goes in front of the first one of strictly lower quality, so
    the order is total and stable. *)
Fixpoint insertByQuality (g : PassGenerator) (p : Pass) (l : list Pass) : list Pass :=
  match l with
  | [] => [p]
  | q :: l' =>
      if comparePassQuality g q p then p :: q :: l'
      else q :: insertByQuality g p l'
  end.

Definition sortByQuality (g : PassGenerator) (l : list Pass) : list Pass :=
  fold_right (insertByQuality g) [] l.

(** Modelled from the spec: the merge of [pruneAndReplacePasses].
    [mergeFlags seen l] tells for each pass of [l] whether it stays,
    i.e. whether no pass in front of it (one of [seen], or an earlier
    one of [l]) is a duplicate of it: "discard the lower-quality member
    of each duplicate pair" (spec 4.1). *)
Fixpoint mergeFlags (seen l : list Pass) : list bool :=
  match l with
  | [] => []
  | p :: l' =>
      negb (existsb (fun q => passesEqual q p) seen) :: mergeFlags (p :: seen) l'
  end.

(** Modelled from the spec: the cut of [pruneAndReplacePasses].  Only
    the first [n] passes that stay are kept: "discard candidates below
    the keep-count" (spec 4.1). *)
Fixpoint capFlags (n : nat) (flags : list bool) : list bool :=
  match flags with
  | [] => []
  | false :: fs => false :: capFlags n fs
  | true :: fs =>
      match n with
      | O => false :: capFlags O fs
      | S m => true :: capFlags m fs
      end
  end.

(** The passes of [l] whose flag is set. *)
Fixpoint select (l : list Pass) (flags : list bool) : list Pass :=
  match l, flags with
  | p :: l', true :: fs => p :: select l' fs
  | _ :: l', false :: fs => select l' fs
  | _, _ => []
  end.

(** [b] is rated no higher than [a]. *)
Definition notBetter (g : PassGenerator) (a b : Pass) : Prop :=
  ratePass g b <= ratePass g a.

(** [fs'] keeps no pass that [fs] drops. *)
Definition keepsLess (fs' fs : list bool) : Prop :=
  Forall2 (fun b' b => b' = true -> b = true) fs' fs.

(** Modelled from the spec: which of the candidates, in the order of
    their quality, outlive the prune step of spec 4.1. *)
Definition survivalFlags (g : PassGenerator) : list bool :=
  capFlags num_passes_to_keep_after_pruning
           (mergeFlags [] (sortByQuality g (passes_to_optimize g))).

(** Modelled from the spec: the candidates a prune step retains. *)
Definition retainedPasses (g : PassGenerator) : list Pass :=
  select (sortByQuality g (passes_to_optimize g)) (survivalFlags g).

(** Modelled from the spec: the body of [pruneAndReplacePasses] is not
    among the sources; "sort/compare candidates by quality ...
    Discard the lower-quality member of each duplicate pair and
    discard candidates below the keep-count; replace discarded slots
    with freshly sampled random candidates" (spec 4.1). *)
Definition pruneAndReplacePasses (g : PassGenerator) : PassGenerator :=
  let kept := retainedPasses g in
  let (fresh, g1) := generatePasses (num_passes_to_optimize - length kept) g in
  with_passes (kept ++ fresh) g1.

(** Modelled from the spec: the body of [saveBestPass] is not among
    the sources; "compare the best candidate in the current population
    against the stored best-known pass; replace the stored value only
    if the new candidate strictly exceeds it in quality"
    (spec 4.1). *)
Definition saveBestPass (g : PassGenerator) : PassGenerator :=
  match sortByQuality g (passes_to_optimize g) with
  | [] => g
  | best :: _ =>
      if comparePassQuality g (best_known_pass g) best
      then with_best_known_pass best g
      else g
  end.

(** Modelled from the spec: the body of [continuouslyGeneratePasses] is
    not among the sources; one turn of its loop is steps 1 to 4 of
    spec 4.1, "Background loop", after the candidates' passer point
    is refreshed. *)
Definition iteration (g : PassGenerator) : PassGenerator :=
  let g1 := with_world (updated_world g) g in
  let g2 := updatePasserPointOfAllPasses (passer_point g1) g1 in
  let g3 := optimizePasses g2 in
  let g4 := pruneAndReplacePasses g3 in
  saveBestPass g4.

(** What the two threads do to a generator, one whole operation at a
    time: the public member functions called by the foreground and
    the turns of the background loop. *)
Inductive Op : Type :=
| CallSetWorld (w : World)
| CallSetPasserPoint (p : Point)
| CallSetPasserRobotId (robot_id : N)
| CallSetTargetRegion (area : option Rectangle)
| CallGetBestPassSoFar
| BackgroundIteration.

(** The generator after an operation, and what the operation returned
    if it is [getBestPassSoFar]. *)
Definition step (op : Op) (g : PassGenerator) : PassGenerator * option (Pass * Q) :=
  match op with
  | CallSetWorld w => (setWorld w g, None)
  | CallSetPasserPoint p => (setPasserPoint p g, None)
  | CallSetPasserRobotId rid => (setPasserRobotId rid g, None)
  | CallSetTargetRegion area => (setTargetRegion area g, None)
  | CallGetBestPassSoFar => (g, Some (getBestPassSoFar g))
  | BackgroundIteration => (iteration g, None)
  end.

(** The values returned by the calls of [getBestPassSoFar] in a run,
    in the order of the calls. *)
Fixpoint returned (ops : list Op) (g : PassGenerator) : list (Pass * Q) :=
  match ops with
  | [] => []
  | op :: ops' =>
      let (g', r) := step op g in
      match r with
      | Some v => v :: returned ops' g'
      | None => returned ops' g'
      end
  end.

Fixpoint run (ops : list Op) (g : PassGenerator) : PassGenerator :=
  match ops with
  | [] => g
  | op :: ops' => run ops' (fst (step op g))
  end.

(** The operation leaves the target region at [area]. *)
Definition keepsTargetRegion (area : option Rectangle) (op : Op) : Prop :=
  match op with
  | CallSetTargetRegion a => a = area
  | _ => True
  end.

(** The operation leaves the world at [w]. *)
Definition keepsWorld (w : World) (op : Op) : Prop :=
  match op with
  | CallSetWorld w' => w' = w
  | _ => True
  end.

(** A list of ratings never goes down. *)
Definition nonDecreasing (qs : list Q) : Prop :=
  forall i a b, nth_error qs i = Some a -> nth_error qs (S i) = Some b -> a <= b.

End Generator.

End Passing.

(* ================================================================== *)
(** ** ai/intent: Intent *)
(* ================================================================== *)

Module IntentModel.

(** What a call does: it returns, or it throws. *)
Inductive Outcome (A : Type) : Type :=
| Returned (a : A)
| Thrown.
Arguments Returned {A} a.
Arguments Thrown {A}.

Section Intent.
(** [ai/intent/avoid_area.h] is not among the sources. *)
Context {AvoidArea : Type}.

(** The data members of intent.h:102-113. *)
Record Intent : Type :=
  mkIntent { priority : N; areas_to_avoid : list AvoidArea }.

(** Modelled from the spec: the body of [Intent::setPriority] is in
    [intent.cpp], which is not among the sources; values outside the
    documented range [[0, 100]] "must be rejected at the accessor boundary
    (fails fast, never silently clamped)" (spec 7). *)
Definition setPriority (new_priority : N) (i : Intent) : Outcome Intent :=
  if (new_priority <=? 100)%N
  then Returned (mkIntent new_priority (areas_to_avoid i))
  else Thrown.

(** Modelled from the spec: the body of [Intent::Intent] is in
    [intent.cpp], which is not among the sources; the constructor is an
    accessor boundary of the priority like [setPriority] (spec 7). *)
Definition construct (priority : N) : Outcome Intent :=
  if (priority <=? 100)%N
  then Returned (mkIntent priority [])
  else Thrown.

Definition getPriority (i : Intent) : N := priority i.

(** What is in the object after a call: a call that throws leaves the
    object as it was. *)
Definition afterCall (before : Intent) (o : Outcome Intent) : Intent :=
  match o with
  | Returned i => i
  | Thrown => before
  end.

End Intent.

End IntentModel.

(* ================================================================== *)
(** ** ai/hl/stp/tactic: CherryPickTactic *)
(* ================================================================== *)

Module CherryPick.

(** What cherry_pick_tactic.cpp takes from headers that are not among the
    sources: the value types, the pass generator's public member
    functions, the move action and [dist] of [geom/util.h]. *)
Class Env : Type :=
  { World : Type;
    Point : Type;
    Angle : Type;
    Rectangle : Type;
    Robot : Type;
    Pass : Type;
    Intent : Type;
    MoveAction : Type;
    PassGenerator : Type;
    (** [world.ball().position()], [robot.position()]. *)
    ballPosition : World -> Point;
    position : Robot -> Point;
    (** [pass.receiverPoint()], [pass.receiverOrientation()]. *)
    receiverPoint : Pass -> Point;
    receiverOrientation : Pass -> Angle;
    (** [dist(const Point&, const Rectangle&)]. *)
    dist : Point -> Rectangle -> Q;
    (** [MoveAction::ROBOT_CLOSE_TO_DEST_THRESHOLD], [Angle()]. *)
    ROBOT_CLOSE_TO_DEST_THRESHOLD : Q;
    zeroAngle : Angle;
    (** [MoveAction(double, Angle, bool)] and
        [MoveAction::updateStateAndGetNextIntent], which updates the
        action and returns the intent. *)
    newMoveAction : Q -> Angle -> bool -> MoveAction;
    updateStateAndGetNextIntent :
      MoveAction -> Robot -> Point -> Angle -> Q -> Intent * MoveAction;
    (** The public member functions of [Passing::PassGenerator] the tactic
        calls. *)
    newPassGenerator : World -> Point -> PassGenerator;
    pgSetTargetRegion : option Rectangle -> PassGenerator -> PassGenerator;
    pgSetWorld : World -> PassGenerator -> PassGenerator;
    pgGetBestPassSoFar : PassGenerator -> Pass * Q;
    (** What the generator's own thread has done to it by the time of the
        tactic's [n]-th call of one of its member functions. *)
    background : nat -> PassGenerator -> PassGenerator }.

Section Tactic.
Context {env : Env}.
Local Open Scope itree_scope.

(** The data members of the tactic; [robot] is the one of the base class
    [Tactic], empty until a robot is assigned. *)
Record CherryPickTactic : Type :=
  mkTactic
    { pass_generator : PassGenerator;
      world : World;
      target_region : Rectangle;
      robot : option Robot }.

(** cherry_pick_tactic.cpp:10-17; the base class is constructed with
    [loop_forever = true] and without a robot. *)
Definition construct (w : World) (region : Rectangle) : CherryPickTactic :=
  mkTactic (pgSetTargetRegion (Some region) (newPassGenerator w (ballPosition w)))
           w region None.

(** cherry_pick_tactic.cpp:24-27. *)
Definition updateParams (w : World) (t : CherryPickTactic) : CherryPickTactic :=
  mkTactic (pass_generator t) w (target_region t) (robot t).

(** cherry_pick_tactic.cpp:29-33: the cost, and the tactic after the
    call. *)
Definition calculateRobotCost (t : CherryPickTactic) (r : Robot) (w : World)
  : Q * CherryPickTactic :=
  (dist (position r) (target_region t), t).

(** What the coroutine body does to the outside: it reads [this->world]
    and [*robot], calls the pass generator, and yields. *)
Variant tacticE : Type -> Type :=
| ReadWorld : tacticE World
| DerefRobot : tacticE Robot
| SetWorld (w : World) : tacticE unit
| GetBestPassSoFar : tacticE (Pass * Q)
| Yield (intent : Intent) : tacticE unit.

(** cherry_pick_tactic.cpp:42-47, one turn of the [do ... while (true)]. *)
Definition loopBody (move_action : MoveAction) : itree tacticE (MoveAction + void) :=
  w <- ITree.trigger ReadWorld ;;
  ITree.trigger (SetWorld w) ;;
  pass_and_score <- ITree.trigger GetBestPassSoFar ;;
  r <- ITree.trigger DerefRobot ;;
  let (intent, move_action') :=
    updateStateAndGetNextIntent move_action r
      (receiverPoint (fst pass_and_score))
      (receiverOrientation (fst pass_and_score)) 0 in
  ITree.trigger (Yield intent) ;;
  Ret (inl move_action').

(** cherry_pick_tactic.cpp:35-49. *)
Definition calculateNextIntent : itree tacticE void :=
  let move_action := newMoveAction ROBOT_CLOSE_TO_DEST_THRESHOLD zeroAngle true in
  best_pass_and_score <- ITree.trigger GetBestPassSoFar ;;
  ITree.iter loopBody move_action.

(** What an observer of the pass generator sees of a resumption. *)
Inductive Obs : Type :=
| ObsSetWorld (w : World)
| ObsGetBestPassSoFar (r : Pass * Q)
| ObsYield (intent : Intent).

(** A suspended coroutine: the rest of the body, the tactic object, and
    how many calls the tactic has made to its pass generator. *)
Record Coroutine : Type :=
  mkCoroutine
    { rest : itree tacticE void;
      self : CherryPickTactic;
      calls : nat }.

Definition withPassGenerator (pg : PassGenerator) (t : CherryPickTactic) : CherryPickTactic :=
  mkTactic pg (world t) (target_region t) (robot t).

(** What a resumption gives: the yielded intent, what was observed on
    the way, and the suspended coroutine; nothing when [*robot] is read
    while no robot is assigned. *)
Definition Resumed : Type := option (Intent * list Obs * Coroutine).

(** What happens at one node of the body: a [yield] suspends, anything
    else is done on the tactic object and the body [continue]s. *)
Definition atNode
           (continue : itree tacticE void -> CherryPickTactic -> nat -> list Obs -> Resumed)
           (node : itree' tacticE void) (s : CherryPickTactic)
           (n : nat) (log : list Obs) : Resumed :=
  match node with
  | RetF v => match v with end
  | TauF t' => continue t' s n log
  | VisF e k =>
      match e in tacticE X return (X -> itree tacticE void) -> Resumed with
      | ReadWorld => fun k => continue (k (world s)) s n log
      | DerefRobot => fun k =>
          match robot s with
          | Some r => continue (k r) s n log
          | None => None
          end
      | SetWorld w => fun k =>
          let pg := pgSetWorld w (background n (pass_generator s)) in
          continue (k tt) (withPassGenerator pg s) (S n) (log ++ [ObsSetWorld w])
      | GetBestPassSoFar => fun k =>
          let pg := background n (pass_generator s) in
          let r := pgGetBestPassSoFar pg in
          continue (k r) (withPassGenerator pg s) (S n)
                   (log ++ [ObsGetBestPassSoFar r])
      | Yield intent => fun k =>
          Some (intent, log ++ [ObsYield intent], mkCoroutine (k tt) s n)
      end k
  end.

(** Runs the body up to its next [yield], through [fuel] nodes at
    most. *)
Fixpoint resumeFuel (fuel : nat) (t : itree tacticE void) (s : CherryPickTactic)
         (n : nat) (log : list Obs) : Resumed :=
  match fuel with
  | O => None
  | S fuel' => atNode (resumeFuel fuel') (observe t) s n log
  end.

(** One resumption.  A turn of the loop is eight nodes of the tree at
    most, so the fuel never runs out. *)
Definition resume (c : Coroutine) : Resumed :=
  resumeFuel 16 (rest c) (self c) (calls c) [].

(** The coroutine before its first resumption. *)
Definition start (t : CherryPickTactic) : Coroutine :=
  mkCoroutine calculateNextIntent t 0.

(** The caller's control tick: [updateParams] with the latest world, then
    one resumption. *)
Definition tick (w : World) (c : Coroutine) : Resumed :=
  resume (mkCoroutine (rest c) (updateParams w (self c)) (calls c)).

(** As many ticks as there are worlds, in sequence: the intent and the
    observations of each. *)
Fixpoint ticks (ws : list World) (c : Coroutine)
  : option (list (Intent * list Obs) * Coroutine) :=
  match ws with
  | [] => Some ([], c)
  | w :: ws' =>
      match tick w c with
      | None => None
      | Some (intent, log, c') =>
          match ticks ws' c' with
          | None => None
          | Some (outs, c'') => Some ((intent, log) :: outs, c'')
          end
      end
  end.

(** The coroutine is suspended at the [yield] of the loop, with the move
    action [ma]. *)
Definition inLoop (c : Coroutine) (ma : MoveAction) : Prop :=
  observe (rest c) = TauF (ITree.iter loopBody ma).

(** The coroutine has not been resumed yet, or is suspended at the
    [yield]. *)
Definition suspended (c : Coroutine) : Prop :=
  rest c = calculateNextIntent \/ exists ma, inLoop c ma.

(** What a resumption shows of the pass generator: nothing before the
    loop but the call of line 39, in the first resumption; then the world
    is pushed, then the best pass is pulled, then the intent is
    yielded. *)
Definition turnLog (w : World) (r : Pass * Q) (intent : Intent) (log : list Obs) : Prop :=
  log = [ObsSetWorld w; ObsGetBestPassSoFar r; ObsYield intent] \/
  exists r0, log = [ObsGetBestPassSoFar r0; ObsSetWorld w;
                    ObsGetBestPassSoFar r; ObsYield intent].

(** One resumption for the world [w] with the robot [rb]: the yielded
    intent is computed from the pass [fst r], which [getBestPassSoFar]
    returned on a generator that [setWorld w] had been called on
    before. *)
Definition turnOf (w : World) (rb : Robot) (intent : Intent) (log : list Obs) : Prop :=
  exists (pg : PassGenerator) (n : nat) (ma : MoveAction),
    let r := pgGetBestPassSoFar (background (S n) (pgSetWorld w (background n pg))) in
    intent = fst (updateStateAndGetNextIntent ma rb (receiverPoint (fst r))
                                              (receiverOrientation (fst r)) 0) /\
    turnLog w r intent log.

(** cherry_pick_tactic.cpp:42-47 written out as a function: what one turn
    of the loop for the world [w] makes of the move action [ma] and of
    the pass generator [pg], at the tactic's [n]-th call of the
    generator, and the intent it yields. *)
Definition turn (w : World) (rb : Robot) (ma : MoveAction) (pg : PassGenerator) (n : nat)
  : Intent * MoveAction * PassGenerator :=
  let pg2 := background (S n) (pgSetWorld w (background n pg)) in
  let pass_and_score := pgGetBestPassSoFar pg2 in
  let out := updateStateAndGetNextIntent ma rb
               (receiverPoint (fst pass_and_score))
               (receiverOrientation (fst pass_and_score)) 0 in
  (fst out, snd out, pg2).

(** The intents of one turn per world, the move action and the pass
    generator being carried from a turn to the next. *)
Fixpoint turns (ws : list World) (rb : Robot) (ma : MoveAction) (pg : PassGenerator)
         (n : nat) : list Intent :=
  match ws with
  | [] => []
  | w :: ws' =>
      let res := turn w rb ma pg n in
      fst (fst res) :: turns ws' rb (snd (fst res)) (snd res) (S (S n))
  end.

(** What a log of the loop shows: the world pushed, then one pull, then
    the yield. *)
Definition loopLog (w : World) (out : Intent * list Obs) : Prop :=
  exists r, snd out = [ObsSetWorld w; ObsGetBestPassSoFar r; ObsYield (fst out)].

(** What the log of the first resumption shows: the pull of line 39
    before the same. *)
Definition firstLog (w : World) (out : Intent * list Obs) : Prop :=
  exists r0 r, snd out = [ObsGetBestPassSoFar r0; ObsSetWorld w;
                          ObsGetBestPassSoFar r; ObsYield (fst out)].

(** [updateParams] with each world of [ws], in sequence. *)
Definition updateParamsAll (ws : list World) (t : CherryPickTactic) : CherryPickTactic :=
  fold_left (fun s w => updateParams w s) ws t.

(** The worlds [setWorld] was called with, in the order of the calls. *)
Definition pushedWorlds (log : list Obs) : list World :=
  flat_map (fun o => match o with ObsSetWorld w => [w] | _ => [] end) log.

(** How many times [getBestPassSoFar] was called. *)
Definition pulls (log : list Obs) : nat :=
  length (filter (fun o => match o with ObsGetBestPassSoFar _ => true | _ => false end)
                 log).

End Tactic.

End CherryPick.

(* ================================================================== *)
(** ** A small concrete setting *)
(* ================================================================== *)

(** One instance of each environment, to run the definitions on. *)
Module Demo.
Import Geom WorldModel.

(** A linear congruential generator of period 8; a draw is the state
    over 8. *)
Definition draw (s : nat) : Q * nat :=
  (Z.of_nat (s mod 8) # 8, ((5 * s + 3) mod 8)%nat).

(** A rating that falls with the number of opponents, is zero outside the
    target region, and otherwise grows with the receiver's [x]. *)
Definition rating (w : World) (area : option Rectangle) (p : Passing.Pass) : Q :=
  let conform :=
    match area with
    | Some r => if containsPointb r (Passing.receiverPoint p) then 1 else 0
    | None => 1
    end in
  conform * Qmax 0 (Qmin 1 (x (Passing.receiverPoint p) / 10))
  / (1 + inject_Z (Z.of_nat (length (enemy_team w)))).

(** An optimiser step that finds no gain and leaves the candidate where it
    is (spec 4.1, "Failure semantics"). *)
Definition noGain (weights : Passing.Array4) (objective : Passing.Array4 -> Q)
           (a : Passing.Array4) : Passing.Array4 := a.

#[export] Instance passingEnv : Passing.Env :=
  {| Passing.Rng := nat;
     Passing.uniform01 := draw;
     Passing.quality := rating;
     Passing.maximize := noGain;
     Passing.num_passes_to_optimize := 3;
     Passing.num_passes_to_keep_after_pruning := 2;
     Passing.merge_tolerance := 1 # 100;
     Passing.min_pass_speed := 1;
     Passing.max_pass_speed := 6;
     Passing.min_start_time := 0;
     Passing.max_start_time := 1 |}.

Definition theField : Rectangle := mkRectangle 0 10 0 6.
Definition origin : Point := mkPoint 0 0.

(** An empty field, and the same field with one opponent on it. *)
Definition quietWorld : World :=
  mkWorld (mkBall origin origin) [] [] theField.
Definition busyWorld : World :=
  mkWorld (mkBall origin origin) [] [mkRobot 0 (mkPoint 5 3)] theField.

(** The region of the scenario of spec 8: (4,0)-(6,2). *)
Definition theRegion : Rectangle := mkRectangle 4 6 0 2.

Definition freshGenerator : Passing.PassGenerator :=
  Passing.construct quietWorld origin 1%nat.

(** A run in which the world stays, and one in which it changes. *)
Definition quietOps : list Passing.Op :=
  [Passing.BackgroundIteration; Passing.CallGetBestPassSoFar;
   Passing.CallSetWorld quietWorld;
   Passing.BackgroundIteration; Passing.CallGetBestPassSoFar].
Definition busyOps : list Passing.Op :=
  [Passing.BackgroundIteration; Passing.CallGetBestPassSoFar;
   Passing.CallSetWorld busyWorld;
   Passing.BackgroundIteration; Passing.CallGetBestPassSoFar].


(** Two candidates half a centimetre apart, and a third one elsewhere. *)
Definition nearPass : Passing.Pass :=
  Passing.mkPass origin (mkPoint (1001 # 200) 1) 3 (1 # 2).
Definition farPass : Passing.Pass :=
  Passing.mkPass origin (mkPoint 5 1) 3 (1 # 2).
Definition otherPass : Passing.Pass :=
  Passing.mkPass origin (mkPoint 2 4) 4 (1 # 4).
Definition crowdedGenerator : Passing.PassGenerator :=
  Passing.with_passes [farPass; otherPass; nearPass] freshGenerator.

(** Two duplicates, the lower one being what the generator draws first
    from its seed. *)
Definition dupLow : Passing.Pass :=
  Passing.mkPass origin (mkPoint (10 # 8) (0 # 8)) (23 # 8) (2 # 8).
Definition dupHigh : Passing.Pass :=
  Passing.mkPass origin (mkPoint (251 # 200) 0) (23 # 8) (2 # 8).
Definition pairGenerator : Passing.PassGenerator :=
  Passing.with_passes [dupLow; dupHigh] freshGenerator.

(** Distance of a point to a rectangle, along the axes. *)
Definition axisDist (p : Point) (r : Rectangle) : Q :=
  Qmax 0 (Qmax (x_min r - x p) (x p - x_max r)) +
  Qmax 0 (Qmax (y_min r - y p) (y p - y_max r)).

(** The tactic on top of the pass generator above; the generator's thread
    does one turn of its loop between two calls of the tactic. *)
#[export] Instance tacticEnv : CherryPick.Env :=
  {| CherryPick.World := World;
     CherryPick.Point := Point;
     CherryPick.Angle := Q;
     CherryPick.Rectangle := Rectangle;
     CherryPick.Robot := Robot;
     CherryPick.Pass := Passing.Pass;
     CherryPick.Intent := Point * Q;
     CherryPick.MoveAction := nat;
     CherryPick.PassGenerator := Passing.PassGenerator;
     CherryPick.ballPosition := fun w => ball_position (ball w);
     CherryPick.position := position;
     CherryPick.receiverPoint := Passing.receiverPoint;
     CherryPick.receiverOrientation := fun _ => 0;
     CherryPick.dist := axisDist;
     CherryPick.ROBOT_CLOSE_TO_DEST_THRESHOLD := 1 # 50;
     CherryPick.zeroAngle := 0;
     CherryPick.newMoveAction := fun _ _ _ => 0%nat;
     CherryPick.updateStateAndGetNextIntent :=
       fun ma _ dest angle _ => ((dest, angle), S ma);
     CherryPick.newPassGenerator := fun w p => Passing.construct w p 1%nat;
     CherryPick.pgSetTargetRegion := Passing.setTargetRegion;
     CherryPick.pgSetWorld := Passing.setWorld;
     CherryPick.pgGetBestPassSoFar := Passing.getBestPassSoFar;
     CherryPick.background := fun _ => Passing.iteration |}.

Definition aRobot : Robot := mkRobot 3 (mkPoint 1 1).

Definition readyTactic : CherryPick.CherryPickTactic :=
  CherryPick.mkTactic
    (CherryPick.pass_generator (CherryPick.construct quietWorld theRegion))
    quietWorld theRegion (Some aRobot).

(** The same region and robot position, everything else different. *)
Definition laterTactic : CherryPick.CherryPickTactic :=
  CherryPick.mkTactic
    (Passing.iteration (CherryPick.pass_generator readyTactic))
    busyWorld theRegion None.
Definition twinRobot : Robot := mkRobot 7 (mkPoint 1 1).

(** The areas to avoid of an intent, which [ai/intent/avoid_area.h]
    declares. *)
Inductive AvoidArea : Type := SomeArea.

Definition anIntent : @IntentModel.Intent AvoidArea :=
  IntentModel.mkIntent 50 [SomeArea].

End Demo.

(* ================================================================== *)
(** ** Facts about the pass generator *)
(* ================================================================== *)

Section PassingFacts.
Import Geom WorldModel Passing.
Context {env : Passing.Env}.

Lemma Qltb_lt (a b : Q) : Qltb a b = true <-> a < b.
Proof.
  unfold Qltb. rewrite negb_true_iff. split.
  - intros E. apply Qnot_le_lt. intros L.
    apply Qle_bool_iff in L. congruence.
  - intros L. destruct (Qle_bool b a) eqn:E; [|reflexivity].
    apply Qle_bool_iff in E. exfalso. apply (Qlt_not_le _ _ L E).
Qed.

Lemma Qltb_ge (a b : Q) : Qltb a b = false <-> b <= a.
Proof.
  unfold Qltb. rewrite negb_false_iff. apply Qle_bool_iff.
Qed.

(** *** Sorting by quality *)

Lemma insertByQuality_perm (g : PassGenerator) (p : Pass) (l : list Pass) :
  Permutation (insertByQuality g p l) (p :: l).
Proof.
  induction l as [|q l IH]; simpl.
  - apply Permutation_refl.
  - destruct (comparePassQuality g q p).
    + apply Permutation_refl.
    + eapply perm_trans; [apply perm_skip, IH | apply perm_swap].
Qed.

Lemma sortByQuality_perm (g : PassGenerator) (l : list Pass) :
  Permutation (sortByQuality g l) l.
Proof.
  induction l as [|p l IH]; simpl.
  - apply perm_nil.
  - eapply perm_trans; [apply insertByQuality_perm | apply perm_skip, IH].
Qed.

Lemma insertByQuality_sorted (g : PassGenerator) (p : Pass) (l : list Pass) :
  StronglySorted (notBetter g) l ->
  StronglySorted (notBetter g) (insertByQuality g p l).
Proof.
  induction 1 as [|q l Hs IH Hq]; simpl.
  - constructor; constructor.
  - destruct (comparePassQuality g q p) eqn:E.
    + apply Qltb_lt in E.
      constructor; [constructor; assumption|].
      constructor; [apply Qlt_le_weak, E|].
      eapply Forall_impl; [|exact Hq].
      intros z Hz. unfold notBetter in *.
      apply Qle_trans with (ratePass g q); [exact Hz | apply Qlt_le_weak, E].
    + apply Qltb_ge in E.
      constructor; [exact IH|].
      apply Forall_forall. intros z Hz.
      apply (Permutation_in _ (insertByQuality_perm g p l)) in Hz.
      destruct Hz as [<-|Hz]; [exact E|].
      rewrite Forall_forall in Hq. apply Hq, Hz.
Qed.

Lemma sortByQuality_sorted (g : PassGenerator) (l : list Pass) :
  StronglySorted (notBetter g) (sortByQuality g l).
Proof.
  induction l as [|p l IH]; simpl.
  - constructor.
  - apply insertByQuality_sorted, IH.
Qed.

Lemma StronglySorted_nth {A : Type} (R : A -> A -> Prop) (l : list A) :
  StronglySorted R l ->
  forall i j a b, (i < j)%nat ->
    nth_error l i = Some a -> nth_error l j = Some b -> R a b.
Proof.
  induction 1 as [|c l Hs IH Hc]; intros i j a b Hij Hi Hj.
  - destruct i; discriminate Hi.
  - destruct j as [|j]; [lia|].
    simpl in Hj. destruct i as [|i]; simpl in Hi.
    + injection Hi as <-. rewrite Forall_forall in Hc.
      apply Hc. eapply nth_error_In, Hj.
    + apply (IH i j); [lia | assumption | assumption].
Qed.

(** *** Merging duplicates *)

Lemma within_sym (tol a b : Q) : within tol a b = within tol b a.
Proof.
  unfold within.
  destruct (Qltb (Qabs (a - b)) tol) eqn:E1, (Qltb (Qabs (b - a)) tol) eqn:E2;
    try reflexivity; exfalso.
  - apply Qltb_lt in E1. apply Qltb_ge in E2.
    rewrite Qabs_Qminus in E1. apply (Qlt_not_le _ _ E1 E2).
  - apply Qltb_lt in E2. apply Qltb_ge in E1.
    rewrite Qabs_Qminus in E2. apply (Qlt_not_le _ _ E2 E1).
Qed.

Lemma passesEqual_sym (p q : Pass) : passesEqual p q = passesEqual q p.
Proof.
  unfold passesEqual. cbv zeta.
  rewrite (within_sym _ (a0 (convertPassToArray p))),
          (within_sym _ (a1 (convertPassToArray p))),
          (within_sym _ (a2 (convertPassToArray p))),
          (within_sym _ (a3 (convertPassToArray p))).
  reflexivity.
Qed.

(** A pass with a duplicate among [seen] is flagged out. *)
Lemma mergeFlags_seen (l : list Pass) :
  forall seen j q s,
    nth_error l j = Some q -> In s seen -> passesEqual s q = true ->
    nth j (mergeFlags seen l) false = false.
Proof.
  induction l as [|p l IH]; intros seen j q s Hj Hs He.
  - destruct j; discriminate Hj.
  - destruct j as [|j]; simpl in *.
    + injection Hj as ->. apply negb_false_iff, existsb_exists.
      exists s. split; assumption.
    + apply (IH (p :: seen) j q s); [assumption | right; assumption | assumption].
Qed.

(** A pass with a duplicate in front of it is flagged out. *)
Lemma mergeFlags_later (l : list Pass) :
  forall seen i j p q,
    (i < j)%nat -> nth_error l i = Some p -> nth_error l j = Some q ->
    passesEqual p q = true ->
    nth j (mergeFlags seen l) false = false.
Proof.
  induction l as [|c l IH]; intros seen i j p q Hij Hi Hj He.
  - destruct i; discriminate Hi.
  - destruct j as [|j]; [lia|]. simpl in Hj.
    destruct i as [|i]; simpl in Hi |- *.
    + injection Hi as ->.
      apply (mergeFlags_seen l (p :: seen) j q p); [assumption | left; reflexivity | assumption].
    + apply (IH (c :: seen) i j p q); [lia | assumption | assumption | assumption].
Qed.

(** The keep-count only takes passes out. *)
Lemma capFlags_out (flags : list bool) :
  forall n j, nth j flags false = false -> nth j (capFlags n flags) false = false.
Proof.
  induction flags as [|b fs IH]; intros n j Hj.
  - destruct j; reflexivity.
  - destruct b, n, j; simpl in *; try reflexivity; try discriminate; apply IH, Hj.
Qed.

Lemma capFlags_keepsLess (flags : list bool) :
  forall n, keepsLess (capFlags n flags) flags.
Proof.
  induction flags as [|b fs IH]; intros n; simpl.
  - constructor.
  - destruct b; [destruct n|]; constructor;
      solve [intros; congruence | apply IH].
Qed.

(** No two of the passes that stay are duplicates of each other, nor of
    a pass of [seen]. *)
Lemma select_no_duplicates (l : list Pass) :
  forall seen fs,
    keepsLess fs (mergeFlags seen l) ->
    Forall (fun p => forall s, In s seen -> passesEqual s p = false) (select l fs) /\
    ForallOrdPairs (fun a b => passesEqual a b = false) (select l fs).
Proof.
  induction l as [|p l IH]; intros seen fs Hfs; simpl in *.
  - split; constructor.
  - inversion Hfs as [|b' b fs' ms Hb Hrest]; subst.
    destruct (IH (p :: seen) fs' Hrest) as [Hseen Hpairs].
    destruct b'.
    + split.
      * constructor.
        -- intros s Hs. specialize (Hb eq_refl).
           apply negb_true_iff in Hb.
           destruct (passesEqual s p) eqn:E; [|reflexivity].
           assert (existsb (fun q => passesEqual q p) seen = true) as Hex
               by (apply existsb_exists; exists s; split; assumption).
           congruence.
        -- eapply Forall_impl; [|exact Hseen].
           intros z Hz s Hs. apply Hz. right. exact Hs.
      * constructor; [|exact Hpairs].
        eapply Forall_impl; [|exact Hseen].
        intros z Hz. apply Hz. left. reflexivity.
    + split; [|exact Hpairs].
      eapply Forall_impl; [|exact Hseen].
      intros z Hz s Hs. apply Hz. right. exact Hs.
Qed.

(** A pass with no duplicate in front of it is flagged in. *)
Lemma mergeFlags_stays (l : list Pass) :
  forall seen i p,
    nth_error l i = Some p ->
    (forall s, In s seen -> passesEqual s p = false) ->
    (forall k s, (k < i)%nat -> nth_error l k = Some s -> passesEqual s p = false) ->
    nth i (mergeFlags seen l) false = true.
Proof.
  induction l as [|c l IH]; intros seen i p Hi Hseen Hfront.
  - destruct i; discriminate Hi.
  - destruct i as [|i]; simpl in Hi |- *.
    + injection Hi as ->. apply negb_true_iff.
      destruct (existsb (fun q => passesEqual q p) seen) eqn:E; [|reflexivity].
      apply existsb_exists in E. destruct E as (s & Hs & He).
      rewrite (Hseen s Hs) in He. discriminate He.
    + apply (IH (c :: seen) i p Hi).
      * intros s [<- | Hs]; [apply (Hfront 0%nat); [lia | reflexivity] | apply Hseen, Hs].
      * intros k s Hk Hs. apply (Hfront (S k)); [lia | exact Hs].
Qed.

(** The keep-count leaves in what is flagged in among its first [n]
    places. *)
Lemma capFlags_stays (flags : list bool) :
  forall n i, (i < n)%nat -> nth i flags false = true ->
              nth i (capFlags n flags) false = true.
Proof.
  induction flags as [|b fs IH]; intros n i Hin Hi.
  - destruct i; discriminate Hi.
  - destruct b.
    + destruct n as [|m]; [lia|].
      destruct i as [|i]; simpl in *; [reflexivity | apply IH; [lia | exact Hi]].
    + destruct i as [|i]; simpl in *; [discriminate Hi | apply IH; [lia | exact Hi]].
Qed.

Lemma select_In (l : list Pass) :
  forall flags i p,
    nth_error l i = Some p -> nth i flags false = true -> In p (select l flags).
Proof.
  induction l as [|c l IH]; intros flags i p Hi Hf.
  - destruct i; discriminate Hi.
  - destruct flags as [|b fs]; [destruct i; discriminate Hf|].
    destruct i as [|i]; simpl in Hi, Hf.
    + injection Hi as ->. subst b. left. reflexivity.
    + destruct b; simpl; [right|]; apply (IH fs i p Hi Hf).
Qed.

(** *** What a prune step leaves *)


Lemma generatePasses_snd (n : nat) (g : PassGenerator) :
  snd (generatePasses n g) =
  with_rng (snd (generatePassesFrom g (random_num_gen g) n)) g.
Proof.
  unfold generatePasses.
  destruct (generatePassesFrom g (random_num_gen g) n); reflexivity.
Qed.


(** The population after a prune step: the passes that stay, in the order
    of their quality, then the fresh ones. *)
Lemma pruneAndReplacePasses_population (g : PassGenerator) :
  passes_to_optimize (pruneAndReplacePasses g) =
  retainedPasses g ++
  fst (generatePasses (num_passes_to_optimize - length (retainedPasses g)) g).
Proof.
  unfold pruneAndReplacePasses.
  destruct (generatePasses (num_passes_to_optimize - length (retainedPasses g)) g)
    as [fresh g1]; reflexivity.
Qed.

Lemma pruneAndReplacePasses_frame (g : PassGenerator) :
  world (pruneAndReplacePasses g) = world g /\
  updated_world (pruneAndReplacePasses g) = updated_world g /\
  target_region (pruneAndReplacePasses g) = target_region g /\
  best_known_pass (pruneAndReplacePasses g) = best_known_pass g.
Proof.
  unfold pruneAndReplacePasses.
  pose proof (generatePasses_snd
                (num_passes_to_optimize - length (retainedPasses g)) g) as E.
  destruct (generatePasses (num_passes_to_optimize - length (retainedPasses g)) g)
    as [fresh g1]; simpl in E; subst g1.
  repeat split; reflexivity.
Qed.

(** *** The stored best pass *)

Lemma sortByQuality_head_In (g : PassGenerator) (l : list Pass) (b : Pass) (rest : list Pass) :
  sortByQuality g l = b :: rest -> In b l.
Proof.
  intros E. apply (Permutation_in _ (sortByQuality_perm g l)).
  rewrite E. left. reflexivity.
Qed.

(** [saveBestPass] touches the stored pass only, and only to put a
    strictly better candidate in its place. *)
Lemma saveBestPass_spec (g : PassGenerator) :
  world (saveBestPass g) = world g /\
  updated_world (saveBestPass g) = updated_world g /\
  target_region (saveBestPass g) = target_region g /\
  passes_to_optimize (saveBestPass g) = passes_to_optimize g /\
  (best_known_pass (saveBestPass g) = best_known_pass g \/
   In (best_known_pass (saveBestPass g)) (passes_to_optimize g) /\
   ratePass g (best_known_pass g) < ratePass g (best_known_pass (saveBestPass g))).
Proof.
  unfold saveBestPass.
  destruct (sortByQuality g (passes_to_optimize g)) as [|b rest] eqn:Es.
  - repeat split; try reflexivity. left; reflexivity.
  - destruct (comparePassQuality g (best_known_pass g) b) eqn:Ec.
    + repeat split; try reflexivity. right. simpl. split.
      * eapply sortByQuality_head_In, Es.
      * apply Qltb_lt, Ec.
    + repeat split; try reflexivity. left; reflexivity.
Qed.

(** One turn of the background loop: the pending world becomes the active
    one, the target region stays, and the stored pass is kept or replaced
    by a candidate the new world rates strictly higher. *)
Lemma iteration_spec (g : PassGenerator) :
  world (iteration g) = updated_world g /\
  updated_world (iteration g) = updated_world g /\
  target_region (iteration g) = target_region g /\
  (best_known_pass (iteration g) = best_known_pass g \/
   In (best_known_pass (iteration g)) (passes_to_optimize (iteration g)) /\
   ratePass (iteration g) (best_known_pass g)
   < ratePass (iteration g) (best_known_pass (iteration g))).
Proof.
  unfold iteration. cbv zeta.
  set (g3 := optimizePasses _).
  destruct (pruneAndReplacePasses_frame g3) as (Hw & Hu & Ht & Hb).
  destruct (saveBestPass_spec (pruneAndReplacePasses g3)) as (Sw & Su & St & Sp & Sb).
  rewrite Sw, Su, St, Hw, Hu, Ht.
  repeat split; try reflexivity.
  rewrite Hb in Sb. change (best_known_pass g3) with (best_known_pass g) in Sb.
  destruct Sb as [Sb | [Sin Slt]]; [left; exact Sb | right].
  split.
  - rewrite Sp. exact Sin.
  - unfold ratePass in *. rewrite Sw, St. exact Slt.
Qed.

(** Every operation keeps the stored pass or, in a background turn,
    replaces it by a candidate of strictly higher quality. *)
Lemma step_stored_pass (op : Op) (g : PassGenerator) :
  best_known_pass (fst (step op g)) = best_known_pass g \/
  op = BackgroundIteration /\
  In (best_known_pass (fst (step op g))) (passes_to_optimize (fst (step op g))) /\
  ratePass (fst (step op g)) (best_known_pass g)
  < ratePass (fst (step op g)) (best_known_pass (fst (step op g))).
Proof.
  destruct op; simpl; try (left; reflexivity).
  destruct (iteration_spec g) as (_ & _ & _ & [H | H]); [left | right]; auto.
Qed.

(** While the world and the target region stay, so does the rating, and
    the rating of the stored pass does not go down. *)
Lemma step_static (w : World) (area : option Rectangle) (op : Op) (g : PassGenerator) :
  world g = w -> updated_world g = w -> target_region g = area ->
  keepsWorld w op -> keepsTargetRegion area op ->
  world (fst (step op g)) = w /\
  updated_world (fst (step op g)) = w /\
  target_region (fst (step op g)) = area /\
  quality w area (best_known_pass g)
  <= quality w area (best_known_pass (fst (step op g))).
Proof.
  intros Hw Hu Ht Kw Kt.
  destruct (iteration_spec g) as (Iw & Iu & It & Ib).
  destruct op; simpl in *;
    try (repeat split; solve [assumption | apply Qle_refl | congruence]).
  repeat split; try congruence.
  destruct Ib as [Ib | [_ Ib]].
  - rewrite Ib. apply Qle_refl.
  - unfold ratePass in Ib. rewrite Iw, It, Hu, Ht in Ib.
    apply Qlt_le_weak, Ib.
Qed.

Lemma Sorted_nonDecreasing (qs : list Q) : Sorted Qle qs -> nonDecreasing qs.
Proof.
  induction 1 as [|a l Hs IH Hhd]; intros i u v Hi Hj.
  - destruct i; discriminate Hi.
  - destruct i as [|i]; simpl in *.
    + injection Hi as <-. destruct l as [|b l]; [discriminate Hj|].
      injection Hj as <-. inversion Hhd; assumption.
    + apply (IH i); assumption.
Qed.

Lemma returned_sorted (w : World) (area : option Rectangle) (ops : list Op) :
  forall g,
    world g = w -> updated_world g = w -> target_region g = area ->
    Forall (keepsWorld w) ops -> Forall (keepsTargetRegion area) ops ->
    Sorted Qle (map snd (returned ops g)) /\
    HdRel Qle (quality w area (best_known_pass g)) (map snd (returned ops g)).
Proof.
  induction ops as [|op ops IH]; intros g Hw Hu Ht Kw Kt; simpl.
  - split; constructor.
  - inversion Kw as [|? ? Kw1 Kw2]; inversion Kt as [|? ? Kt1 Kt2]; subst.
    destruct (step_static (world g) (target_region g) op g eq_refl Hu eq_refl Kw1 Kt1)
      as (Sw & Su & St & Sq).
    destruct (IH (fst (step op g)) Sw Su St Kw2 Kt2) as [Hs Hh].
    destruct (step op g) as [g' r] eqn:Es. simpl in *.
    destruct r as [v|].
    + assert (op = CallGetBestPassSoFar) as -> by (destruct op; simpl in Es; congruence).
      simpl in Es. injection Es as <- <-. simpl.
      split.
      * constructor; [exact Hs | exact Hh].
      * constructor. unfold ratePass. apply Qle_refl.
    + split; [exact Hs|].
      inversion Hh as [|b l Hb El]; constructor.
      apply Qle_trans with (quality (world g) (target_region g) (best_known_pass g'));
        assumption.
Qed.

(** *** Fresh candidates *)




(** *** The claims about the pass generator *)

(** C1 (amended).  While the target region and the world stay what they
    are, the quality returned by successive calls of [getBestPassSoFar]
    never goes down, whatever the two threads do in between; and no
    operation resets the stored pass: it is kept, or a turn of the
    background loop replaces it by a candidate of the population whose
    quality is strictly higher. *)
Theorem best_pass_quality_monotone (ops : list Op) (g : PassGenerator) :
  updated_world g = world g ->
  Forall (keepsWorld (world g)) ops ->
  Forall (keepsTargetRegion (target_region g)) ops ->
  nonDecreasing (map snd (returned ops g)) /\
  (forall op g',
      best_known_pass (fst (step op g')) = best_known_pass g' \/
      op = BackgroundIteration /\
      In (best_known_pass (fst (step op g'))) (passes_to_optimize (fst (step op g'))) /\
      ratePass (fst (step op g')) (best_known_pass g')
      < ratePass (fst (step op g')) (best_known_pass (fst (step op g')))).
Proof.
  intros Hu Kw Kt. split.
  - apply Sorted_nonDecreasing.
    apply (returned_sorted (world g) (target_region g) ops g eq_refl Hu eq_refl Kw Kt).
  - intros op g'. apply step_stored_pass.
Qed.

(** C4 (amended).  Take two candidates of the population that enters a
    prune step, of which one is in front of the other once the
    population is sorted by quality, and which are duplicates (every
    dimension of their parameter vectors within the merge tolerance).
    The one behind is not among the candidates the step retains, and its
    quality is not higher than that of the one in front; no two retained
    candidates are duplicates; and the one in front is retained, and so
    is in the population after the step, when no candidate in front of
    it is its duplicate and it is within the keep-count.  The population
    after the step is the retained candidates followed by the freshly
    sampled ones, which are not merged. *)
Theorem prune_merges_duplicates (g : PassGenerator) (i j : nat) (p q : Pass) :
  (i < j)%nat ->
  nth_error (sortByQuality g (passes_to_optimize g)) i = Some p ->
  nth_error (sortByQuality g (passes_to_optimize g)) j = Some q ->
  passesEqual p q = true \/ passesEqual q p = true ->
  nth j (survivalFlags g) false = false /\
  ratePass g q <= ratePass g p /\
  ForallOrdPairs (fun a b => passesEqual a b = false) (retainedPasses g) /\
  passes_to_optimize (pruneAndReplacePasses g)
  = select (sortByQuality g (passes_to_optimize g)) (survivalFlags g)
    ++ fst (generatePasses (num_passes_to_optimize - length (retainedPasses g)) g) /\
  ((forall k s, (k < i)%nat ->
                nth_error (sortByQuality g (passes_to_optimize g)) k = Some s ->
                passesEqual s p = false) ->
   (i < num_passes_to_keep_after_pruning)%nat ->
   nth i (survivalFlags g) false = true /\
   In p (retainedPasses g) /\
   In p (passes_to_optimize (pruneAndReplacePasses g))).
Proof.
  intros Hij Hi Hj He.
  assert (passesEqual p q = true) as He'
      by (destruct He as [He | He]; [|rewrite passesEqual_sym]; exact He).
  split; [|split; [|split; [|split]]].
  - apply capFlags_out.
    apply (mergeFlags_later _ [] i j p q Hij Hi Hj He').
  - apply (StronglySorted_nth _ _ (sortByQuality_sorted g (passes_to_optimize g))
                              i j p q Hij Hi Hj).
  - apply (select_no_duplicates _ [] _ (capFlags_keepsLess _ _)).
  - apply pruneAndReplacePasses_population.
  - intros Hfront Hkeep.
    assert (nth i (survivalFlags g) false = true) as Hflag.
    { apply capFlags_stays; [exact Hkeep|].
      apply (mergeFlags_stays _ [] i p Hi); [intros s []|exact Hfront]. }
    assert (In p (retainedPasses g)) as Hin
        by (apply (select_In _ _ i p Hi Hflag)).
    split; [exact Hflag|]. split; [exact Hin|].
    rewrite pruneAndReplacePasses_population. apply in_or_app. left. exact Hin.
Qed.


End PassingFacts.

(** C3 (code defect).  In the array handed to the optimiser the
    pass-speed slot (index 2) holds [PASS_TIME_WEIGHT] and the start-time
    slot (index 3) holds [PASS_SPEED_WEIGHT], and the two constants
    differ: the last two entries of [optimizer_param_weights] are in the
    opposite order of the documented layout of the parameter vector.
    Only the two spatial slots hold the weight named after them. *)
Theorem optimizer_param_weights_swapped :
  (forall d pass,
      Passing.at_ (Passing.convertPassToArray pass) (Passing.slot d)
      = Some (Passing.quantity d pass)) /\
  Passing.at_ Passing.optimizer_param_weights (Passing.slot Passing.ReceiverX)
  = Some (Passing.weightFor Passing.ReceiverX) /\
  Passing.at_ Passing.optimizer_param_weights (Passing.slot Passing.ReceiverY)
  = Some (Passing.weightFor Passing.ReceiverY) /\
  Passing.at_ Passing.optimizer_param_weights (Passing.slot Passing.PassSpeed)
  = Some Passing.PASS_TIME_WEIGHT /\
  Passing.at_ Passing.optimizer_param_weights (Passing.slot Passing.PassStartTime)
  = Some Passing.PASS_SPEED_WEIGHT /\
  ~ Passing.weightFor Passing.PassSpeed == Passing.PASS_TIME_WEIGHT /\
  ~ Passing.weightFor Passing.PassStartTime == Passing.PASS_SPEED_WEIGHT.
Proof.
  split; [intros d pass; destruct d; reflexivity|].
  repeat split; try reflexivity; cbn; intro H; discriminate H.
Qed.

Section PassingRuns.
Import Geom WorldModel Passing Demo.


Lemma best_pass_quality_monotone_run :
  updated_world freshGenerator = world freshGenerator /\
  Forall (keepsWorld (world freshGenerator)) quietOps /\
  Forall (keepsTargetRegion (target_region freshGenerator)) quietOps /\
  nonDecreasing (map snd (returned quietOps freshGenerator)).
Proof.
  assert (Forall (keepsWorld (world freshGenerator)) quietOps) as Kw
      by (repeat constructor).
  assert (Forall (keepsTargetRegion (target_region freshGenerator)) quietOps) as Kt
      by (repeat constructor).
  split; [reflexivity|]. split; [exact Kw|]. split; [exact Kt|].
  exact (proj1 (best_pass_quality_monotone quietOps freshGenerator eq_refl Kw Kt)).
Defined.

(** C1 as stated fails: the target region stays (none is ever set), the
    world gets an opponent between two calls, and the second call
    returns a lower quality (5/16 after 5/8) for the same pass. *)
Lemma best_pass_quality_drops_with_world :
  Forall (keepsTargetRegion (target_region freshGenerator)) busyOps /\
  map snd (returned busyOps freshGenerator) = [50 # 80; 50 # 160] /\
  ~ nonDecreasing (map snd (returned busyOps freshGenerator)).
Proof.
  split; [repeat constructor|].
  assert (map snd (returned busyOps freshGenerator) = [50 # 80; 50 # 160]) as E
      by (vm_compute; reflexivity).
  split; [exact E|].
  rewrite E. intros H.
  specialize (H 0%nat (50 # 80) (50 # 160) eq_refl eq_refl).
  unfold Qle in H. simpl in H. lia.
Qed.

Lemma prune_merges_duplicates_run :
  (0 < 1)%nat /\
  nth_error (sortByQuality crowdedGenerator (passes_to_optimize crowdedGenerator)) 0
  = Some nearPass /\
  nth_error (sortByQuality crowdedGenerator (passes_to_optimize crowdedGenerator)) 1
  = Some farPass /\
  passesEqual nearPass farPass = true /\
  nth 1 (survivalFlags crowdedGenerator) false = false /\
  ratePass crowdedGenerator farPass <= ratePass crowdedGenerator nearPass /\
  In nearPass (passes_to_optimize (pruneAndReplacePasses crowdedGenerator)).
Proof.
  assert (nth_error (sortByQuality crowdedGenerator (passes_to_optimize crowdedGenerator)) 0
          = Some nearPass) as H0 by (vm_compute; reflexivity).
  assert (nth_error (sortByQuality crowdedGenerator (passes_to_optimize crowdedGenerator)) 1
          = Some farPass) as H1 by (vm_compute; reflexivity).
  assert (passesEqual nearPass farPass = true) as He by (vm_compute; reflexivity).
  destruct (prune_merges_duplicates crowdedGenerator 0 1 nearPass farPass
              ltac:(lia) H0 H1 (or_introl He)) as (Hf & Hq & _ & _ & Hstay).
  destruct Hstay as (_ & _ & Hin).
  { intros k s Hk. lia. }
  { simpl. lia. }
  repeat split; try assumption. lia.
Defined.

(** C4 as stated fails: the population holds two duplicates, the prune
    step retains the better one only, and the first freshly sampled
    replacement is the other one again, so both are in the population
    after the step. *)
Lemma duplicates_after_prune_step :
  passes_to_optimize pairGenerator = [dupLow; dupHigh] /\
  passesEqual dupHigh dupLow = true /\
  retainedPasses pairGenerator = [dupHigh] /\
  nth_error (passes_to_optimize (pruneAndReplacePasses pairGenerator)) 0 = Some dupHigh /\
  nth_error (passes_to_optimize (pruneAndReplacePasses pairGenerator)) 1 = Some dupLow /\
  ~ ForallOrdPairs (fun a b => passesEqual a b = false)
                   (passes_to_optimize (pruneAndReplacePasses pairGenerator)).
Proof.
  assert (passesEqual dupHigh dupLow = true) as He by (vm_compute; reflexivity).
  split; [reflexivity|]. split; [exact He|].
  split; [vm_compute; reflexivity|].
  assert (exists rest,
             passes_to_optimize (pruneAndReplacePasses pairGenerator)
             = dupHigh :: dupLow :: rest) as [rest E]
      by (eexists; vm_compute; reflexivity).
  rewrite E. split; [reflexivity|]. split; [reflexivity|].
  intros H. inversion H as [|a l Hhd _]; subst.
  inversion Hhd as [|b l' Hb _]; subst.
  rewrite He in Hb. discriminate Hb.
Qed.



End PassingRuns.

(* ================================================================== *)
(** ** Facts about the cherry-pick tactic *)
(* ================================================================== *)

Section TacticFacts.
Import CherryPick.
Context {env : CherryPick.Env}.

Lemma resumeFuel_S (fuel : nat) (t : itree tacticE void) (s : CherryPickTactic)
      (n : nat) (log : list Obs) :
  resumeFuel (S fuel) t s n log = atNode (resumeFuel fuel) (observe t) s n log.
Proof. reflexivity. Qed.

(** Goes through one node of the body. *)
Ltac node := rewrite resumeFuel_S; simpl observe; unfold atNode at 1.

(** One turn of the loop, entered at its top. *)
Lemma resume_turn (fuel : nat) (s : CherryPickTactic) (n : nat)
      (ma : MoveAction) (rb : Robot) (log : list Obs) :
  robot s = Some rb ->
  let pg2 := background (S n) (pgSetWorld (world s) (background n (pass_generator s))) in
  let r := pgGetBestPassSoFar pg2 in
  let out := updateStateAndGetNextIntent ma rb (receiverPoint (fst r))
                                         (receiverOrientation (fst r)) 0 in
  exists t',
    resumeFuel (S (S (S (S (S fuel))))) (ITree.iter loopBody ma) s n log =
    Some (fst out,
          ((log ++ [ObsSetWorld (world s)]) ++ [ObsGetBestPassSoFar r])
            ++ [ObsYield (fst out)],
          mkCoroutine t' (withPassGenerator pg2 s) (S (S n))) /\
    observe t' = TauF (ITree.iter loopBody (snd out)).
Proof.
  intros Hr pg2 r out.
  node. node. node.
  rewrite resumeFuel_S. simpl observe. unfold atNode at 1.
  simpl (robot _). rewrite Hr.
  simpl (pass_generator _). fold pg2. fold r.
  rewrite resumeFuel_S. simpl observe. subst out.
  destruct (updateStateAndGetNextIntent ma rb (receiverPoint (fst r))
                                        (receiverOrientation (fst r)) 0)
    as [intent ma'].
  simpl observe. unfold atNode at 1.
  eexists. split; reflexivity.
Qed.

(** A resumption of a coroutine suspended at the [yield]. *)
Lemma resume_in_loop (c : Coroutine) (ma : MoveAction) (rb : Robot) :
  inLoop c ma -> robot (self c) = Some rb ->
  let w := world (self c) in
  let pg2 := background (S (calls c))
                        (pgSetWorld w (background (calls c) (pass_generator (self c)))) in
  let r := pgGetBestPassSoFar pg2 in
  let out := updateStateAndGetNextIntent ma rb (receiverPoint (fst r))
                                         (receiverOrientation (fst r)) 0 in
  exists c',
    resume c = Some (fst out,
                     [ObsSetWorld w; ObsGetBestPassSoFar r; ObsYield (fst out)], c') /\
    inLoop c' (snd out) /\
    self c' = withPassGenerator pg2 (self c).
Proof.
  intros Hl Hr w pg2 r out.
  unfold resume. rewrite resumeFuel_S, Hl. unfold atNode at 1.
  destruct (resume_turn 10 (self c) (calls c) ma rb [] Hr) as (t' & E & Ht').
  eexists. split; [exact E|]. split; [exact Ht' | reflexivity].
Qed.

(** The first resumption: the call of line 39, then one turn. *)
Lemma resume_at_start (c : Coroutine) (rb : Robot) :
  rest c = calculateNextIntent -> robot (self c) = Some rb ->
  let w := world (self c) in
  let pg0 := background (calls c) (pass_generator (self c)) in
  let pg2 := background (S (S (calls c)))
                        (pgSetWorld w (background (S (calls c)) pg0)) in
  let r := pgGetBestPassSoFar pg2 in
  let out := updateStateAndGetNextIntent
               (newMoveAction ROBOT_CLOSE_TO_DEST_THRESHOLD zeroAngle true) rb
               (receiverPoint (fst r)) (receiverOrientation (fst r)) 0 in
  exists c',
    resume c = Some (fst out,
                     [ObsGetBestPassSoFar (pgGetBestPassSoFar pg0);
                      ObsSetWorld w; ObsGetBestPassSoFar r; ObsYield (fst out)], c') /\
    inLoop c' (snd out) /\
    self c' = withPassGenerator pg2 (self c).
Proof.
  intros Hs Hr w pg0 pg2 r out.
  unfold resume. rewrite Hs. unfold calculateNextIntent. node.
  destruct (resume_turn 10 (withPassGenerator pg0 (self c)) (S (calls c))
                        (newMoveAction ROBOT_CLOSE_TO_DEST_THRESHOLD zeroAngle true)
                        rb [ObsGetBestPassSoFar (pgGetBestPassSoFar pg0)] Hr)
    as (t' & E & Ht').
  eexists. split; [exact E|]. split; [exact Ht' | reflexivity].
Qed.

(** A tick on a suspended coroutine yields an intent, shows one turn for
    the world of the tick, and leaves the coroutine at the [yield]. *)
Lemma tick_turn (w : World) (c : Coroutine) (rb : Robot) :
  suspended c -> robot (self c) = Some rb ->
  exists intent log c',
    tick w c = Some (intent, log, c') /\
    turnOf w rb intent log /\
    (exists ma, inLoop c' ma) /\
    robot (self c') = Some rb /\
    target_region (self c') = target_region (self c).
Proof.
  intros [Hs | [ma Hl]] Hr; unfold tick.
  - destruct (resume_at_start
                (mkCoroutine (rest c) (updateParams w (self c)) (calls c)) rb Hs Hr)
      as (c' & E & Hl' & Hself).
    simpl in E, Hl', Hself.
    eexists _, _, c'. split; [exact E|].
    split; [|split; [eexists; exact Hl' | rewrite Hself; split; [exact Hr | reflexivity]]].
    eexists _, _, _. cbv zeta. split; [reflexivity|].
    right. eexists. reflexivity.
  - destruct (resume_in_loop
                (mkCoroutine (rest c) (updateParams w (self c)) (calls c)) ma rb Hl Hr)
      as (c' & E & Hl' & Hself).
    simpl in E, Hl', Hself.
    eexists _, _, c'. split; [exact E|].
    split; [|split; [eexists; exact Hl' | rewrite Hself; split; [exact Hr | reflexivity]]].
    eexists _, _, _. cbv zeta. split; [reflexivity|].
    left. reflexivity.
Qed.

Lemma ticks_turns (rb : Robot) (ws : list World) :
  forall c,
    suspended c -> robot (self c) = Some rb ->
    exists outs c',
      ticks ws c = Some (outs, c') /\
      length outs = length ws /\
      Forall2 (fun w out => turnOf w rb (fst out) (snd out)) ws outs.
Proof.
  induction ws as [|w ws IH]; intros c Hs Hr; simpl.
  - exists [], c. repeat split. constructor.
  - destruct (tick_turn w c rb Hs Hr) as (intent & log & c1 & E & Hturn & Hl & Hr1 & _).
    rewrite E.
    destruct (IH c1 (or_intror Hl) Hr1) as (outs & c2 & E2 & Hlen & Hall).
    rewrite E2. exists ((intent, log) :: outs), c2.
    split; [reflexivity|]. split; [simpl; congruence|].
    constructor; [exact Hturn | exact Hall].
Qed.

(** *** The claims about the tactic *)

(** C6.  Resuming the tactic once for each world of a sequence, after
    [updateParams] with that world, yields exactly one intent per
    resumption; the intent of a resumption is computed from the pass that
    [getBestPassSoFar] returned after [setWorld] had been called with the
    world of that resumption. *)
Theorem ticks_yield_one_intent_each (t : CherryPickTactic) (rb : Robot) (ws : list World) :
  robot t = Some rb ->
  exists outs c,
    ticks ws (start t) = Some (outs, c) /\
    length outs = length ws /\
    Forall2 (fun w out => turnOf w rb (fst out) (snd out)) ws outs.
Proof.
  intros Hr. apply ticks_turns; [left; reflexivity | exact Hr].
Qed.

(** C7.  [calculateRobotCost] returns the distance from the robot's
    position to the tactic's target region and leaves the tactic, its
    pass generator included, as it was; two calls with the same robot
    position and the same target region return the same cost, whatever
    the worlds and the pass generators. *)
Theorem calculateRobotCost_pure (t1 t2 : CherryPickTactic) (r1 r2 : Robot) (w1 w2 : World) :
  position r1 = position r2 ->
  target_region t1 = target_region t2 ->
  fst (calculateRobotCost t1 r1 w1) = dist (position r1) (target_region t1) /\
  snd (calculateRobotCost t1 r1 w1) = t1 /\
  fst (calculateRobotCost t1 r1 w1) = fst (calculateRobotCost t2 r2 w2).
Proof.
  intros Hp Ht. unfold calculateRobotCost. simpl.
  rewrite Hp, Ht. repeat split; reflexivity.
Qed.

(** C10.  [updateParams] writes the tactic's [world] and nothing else:
    the pass generator, the target region and the robot are what they
    were.  The next resumption then calls [setWorld] once, with that
    world, before it pulls the best pass. *)
Theorem updateParams_only_caches_world (w : World) (c : Coroutine) (rb : Robot) :
  suspended c -> robot (self c) = Some rb ->
  world (updateParams w (self c)) = w /\
  pass_generator (updateParams w (self c)) = pass_generator (self c) /\
  target_region (updateParams w (self c)) = target_region (self c) /\
  robot (updateParams w (self c)) = robot (self c) /\
  exists intent log c' pre r,
    tick w c = Some (intent, log, c') /\
    log = pre ++ [ObsSetWorld w; ObsGetBestPassSoFar r; ObsYield intent] /\
    (pre = [] \/ exists r0, pre = [ObsGetBestPassSoFar r0]).
Proof.
  intros Hs Hr. repeat split.
  destruct (tick_turn w c rb Hs Hr)
    as (intent & log & c' & E & (pg & n & ma & _ & Hlog) & _).
  cbv zeta in Hlog.
  destruct Hlog as [-> | [r0 ->]].
  - eexists _, _, _, [], _. split; [exact E|]. split; [reflexivity | left; reflexivity].
  - eexists _, _, _, [_], _. split; [exact E|].
    split; [reflexivity | right; eexists; reflexivity].
Qed.

End TacticFacts.

Section TacticRuns.
Import Geom WorldModel Demo.

Lemma ticks_yield_one_intent_each_run :
  CherryPick.robot readyTactic = Some aRobot /\
  exists outs c,
    CherryPick.ticks [quietWorld; busyWorld] (CherryPick.start readyTactic)
    = Some (outs, c) /\
    length outs = length [quietWorld; busyWorld] /\
    Forall2 (fun w out => CherryPick.turnOf w aRobot (fst out) (snd out))
            [quietWorld; busyWorld] outs.
Proof.
  split; [reflexivity|].
  exact (ticks_yield_one_intent_each readyTactic aRobot [quietWorld; busyWorld] eq_refl).
Defined.

Lemma calculateRobotCost_pure_run :
  CherryPick.position aRobot = CherryPick.position twinRobot /\
  CherryPick.target_region readyTactic = CherryPick.target_region laterTactic /\
  fst (CherryPick.calculateRobotCost readyTactic aRobot quietWorld)
  = fst (CherryPick.calculateRobotCost laterTactic twinRobot busyWorld).
Proof.
  split; [reflexivity|]. split; [reflexivity|].
  exact (proj2 (proj2 (calculateRobotCost_pure readyTactic laterTactic aRobot twinRobot
                                               quietWorld busyWorld eq_refl eq_refl))).
Defined.

Lemma updateParams_only_caches_world_run :
  CherryPick.suspended (CherryPick.start readyTactic) /\
  CherryPick.robot (CherryPick.self (CherryPick.start readyTactic)) = Some aRobot /\
  CherryPick.pass_generator
    (CherryPick.updateParams busyWorld (CherryPick.self (CherryPick.start readyTactic)))
  = CherryPick.pass_generator (CherryPick.self (CherryPick.start readyTactic)).
Proof.
  split; [left; reflexivity|]. split; [reflexivity|].
  exact (proj1 (proj2 (updateParams_only_caches_world
                         busyWorld (CherryPick.start readyTactic) aRobot
                         (or_introl eq_refl) eq_refl))).
Defined.

End TacticRuns.

(* ================================================================== *)
(** ** Facts about intents *)
(* ================================================================== *)

Section IntentFacts.
Import IntentModel.
Context {AvoidArea : Type}.

(** A priority in the documented range is stored as it is. *)
Lemma priority_in_range_stored (p : N) (i : @Intent AvoidArea) :
  (p <= 100)%N ->
  exists i', setPriority p i = Returned i' /\ getPriority i' = p /\
             areas_to_avoid i' = areas_to_avoid i.
Proof.
  intros Hp. unfold setPriority.
  apply N.leb_le in Hp. rewrite Hp.
  eexists. repeat split.
Qed.

(** C8.  A priority above 100 (an [unsigned int] has none below 0) makes
    the constructor and [setPriority] throw: no intent is constructed,
    and the intent [setPriority] was called on keeps the priority it
    had, which is neither the rejected value nor that value clamped to
    100. *)
Theorem priority_out_of_range_rejected (p : N) (i : @Intent AvoidArea) :
  (100 < p)%N ->
  @construct AvoidArea p = Thrown /\
  setPriority p i = Thrown /\
  afterCall i (setPriority p i) = i.
Proof.
  intros Hp. apply N.leb_gt in Hp.
  unfold construct, setPriority. rewrite Hp. repeat split.
Qed.

End IntentFacts.

Lemma priority_out_of_range_rejected_run :
  (100 < 101)%N /\
  @IntentModel.construct Demo.AvoidArea 101 = IntentModel.Thrown /\
  IntentModel.setPriority 101 Demo.anIntent = IntentModel.Thrown /\
  IntentModel.getPriority
    (IntentModel.afterCall Demo.anIntent (IntentModel.setPriority 101 Demo.anIntent))
  = 50%N.
Proof.
  assert (100 < 101)%N as H by reflexivity.
  destruct (priority_out_of_range_rejected 101 Demo.anIntent H) as (Hc & Hs & Ha).
  split; [exact H|]. split; [exact Hc|]. split; [exact Hs|].
  rewrite Ha. reflexivity.
Defined.

(* ================================================================== *)
(** ** The coroutine as a step function *)
(* ================================================================== *)

Section TacticSteps.
Import CherryPick.
Context {env : CherryPick.Env}.

(** A tick of a coroutine suspended at the [yield] is one [turn]. *)
Lemma tick_in_loop (w : World) (c : Coroutine) (ma : MoveAction) (rb : Robot) :
  inLoop c ma -> robot (self c) = Some rb ->
  let res := turn w rb ma (pass_generator (self c)) (calls c) in
  exists c' r,
    tick w c = Some (fst (fst res),
                     [ObsSetWorld w; ObsGetBestPassSoFar r; ObsYield (fst (fst res))],
                     c') /\
    inLoop c' (snd (fst res)) /\
    self c' = withPassGenerator (snd res) (updateParams w (self c)) /\
    calls c' = S (S (calls c)).
Proof.
  intros Hl Hr res.
  unfold tick, resume. cbn [rest self calls].
  rewrite resumeFuel_S, Hl. unfold atNode at 1.
  destruct (resume_turn 10 (updateParams w (self c)) (calls c) ma rb [] Hr)
    as (t' & E & Ht').
  eexists (mkCoroutine t' _ _), _. split; [exact E|].
  split; [exact Ht'|]. split; reflexivity.
Qed.

(** The first tick is the call of line 39, whose result is dropped, and
    then one [turn] with a new move action. *)
Lemma tick_at_start (w : World) (c : Coroutine) (rb : Robot) :
  rest c = calculateNextIntent -> robot (self c) = Some rb ->
  let pg0 := background (calls c) (pass_generator (self c)) in
  let res := turn w rb (newMoveAction ROBOT_CLOSE_TO_DEST_THRESHOLD zeroAngle true)
                  pg0 (S (calls c)) in
  exists c' r,
    tick w c = Some (fst (fst res),
                     [ObsGetBestPassSoFar (pgGetBestPassSoFar pg0);
                      ObsSetWorld w; ObsGetBestPassSoFar r; ObsYield (fst (fst res))],
                     c') /\
    inLoop c' (snd (fst res)) /\
    self c' = withPassGenerator (snd res) (updateParams w (self c)) /\
    calls c' = S (S (S (calls c))).
Proof.
  intros Hs Hr pg0 res.
  unfold tick, resume. cbn [rest self calls].
  rewrite Hs. unfold calculateNextIntent.
  rewrite resumeFuel_S. simpl observe. unfold atNode at 1.
  destruct (resume_turn 10 (withPassGenerator pg0 (updateParams w (self c)))
                        (S (calls c))
                        (newMoveAction ROBOT_CLOSE_TO_DEST_THRESHOLD zeroAngle true)
                        rb [ObsGetBestPassSoFar (pgGetBestPassSoFar pg0)] Hr)
    as (t' & E & Ht').
  eexists (mkCoroutine t' _ _), _. split; [exact E|].
  split; [exact Ht'|]. split; reflexivity.
Qed.

Lemma last_cons {A : Type} (l : list A) :
  forall a d, last (a :: l) d = last l a.
Proof.
  induction l as [|b l IH]; intros a d; [reflexivity|].
  change (last (a :: b :: l) d) with (last (b :: l) d).
  rewrite (IH b d), (IH b a). reflexivity.
Qed.

(** Ticks of a coroutine suspended at the [yield]. *)
Lemma ticks_in_loop (rb : Robot) (ws : list World) :
  forall c ma,
    inLoop c ma -> robot (self c) = Some rb ->
    exists outs c',
      ticks ws c = Some (outs, c') /\
      map fst outs = turns ws rb ma (pass_generator (self c)) (calls c) /\
      Forall2 loopLog ws outs /\
      (exists ma', inLoop c' ma') /\
      calls c' = (calls c + 2 * length ws)%nat /\
      target_region (self c') = target_region (self c) /\
      robot (self c') = Some rb /\
      world (self c') = last ws (world (self c)).
Proof.
  induction ws as [|w ws IH]; intros c ma Hl Hr.
  - exists [], c. simpl. repeat split; try constructor; eauto; lia.
  - destruct (tick_in_loop w c ma rb Hl Hr) as (c1 & r & E & Hl1 & Hs1 & Hc1).
    cbv zeta in E, Hl1, Hs1.
    assert (robot (self c1) = Some rb) as Hr1 by (rewrite Hs1; exact Hr).
    destruct (IH c1 _ Hl1 Hr1)
      as (outs & c2 & E2 & Hi & Hlog & Hl2 & Hc2 & Ht2 & Hr2 & Hw2).
    simpl ticks. rewrite E, E2.
    eexists (_ :: outs), c2. split; [reflexivity|].
    split; [|split; [|split; [exact Hl2|split; [|split; [|split; [exact Hr2|]]]]]].
    + simpl. rewrite Hi, Hs1, Hc1. reflexivity.
    + constructor; [exists r; reflexivity | exact Hlog].
    + rewrite Hc2, Hc1. simpl length. lia.
    + rewrite Ht2, Hs1. reflexivity.
    + rewrite Hw2, Hs1. simpl world. symmetry. apply last_cons.
Qed.

(** Ticks of a coroutine that has not been resumed yet. *)
Lemma ticks_from_start (t : CherryPickTactic) (rb : Robot) (w : World) (ws : list World) :
  robot t = Some rb ->
  exists out outs c,
    ticks (w :: ws) (start t) = Some (out :: outs, c) /\
    map fst (out :: outs)
    = turns (w :: ws) rb (newMoveAction ROBOT_CLOSE_TO_DEST_THRESHOLD zeroAngle true)
            (background 0 (pass_generator t)) 1 /\
    firstLog w out /\
    Forall2 loopLog ws outs /\
    calls c = (3 + 2 * length ws)%nat /\
    target_region (self c) = target_region t /\
    robot (self c) = Some rb /\
    world (self c) = last ws w.
Proof.
  intros Hr.
  destruct (tick_at_start w (start t) rb eq_refl Hr) as (c1 & r & E & Hl1 & Hs1 & Hc1).
  cbv zeta in E, Hl1, Hs1. cbn [start self calls] in E, Hl1, Hs1, Hc1.
  assert (robot (self c1) = Some rb) as Hr1 by (rewrite Hs1; exact Hr).
  destruct (ticks_in_loop rb ws c1 _ Hl1 Hr1)
    as (outs & c2 & E2 & Hi & Hlog & _ & Hc2 & Ht2 & Hr2 & Hw2).
  simpl ticks. rewrite E, E2.
  eexists _, outs, c2. split; [reflexivity|].
  split; [|split; [|split; [exact Hlog|split; [|split; [|split; [exact Hr2|]]]]]].
  - simpl. rewrite Hi, Hs1, Hc1. reflexivity.
  - eexists _, r. reflexivity.
  - rewrite Hc2, Hc1. lia.
  - rewrite Ht2, Hs1. reflexivity.
  - rewrite Hw2, Hs1. reflexivity.
Qed.

Lemma loopLog_pushedWorlds (w : World) (out : Intent * list Obs) :
  loopLog w out -> pushedWorlds (snd out) = [w] /\ pulls (snd out) = 1%nat.
Proof. intros [r ->]. split; reflexivity. Qed.

Lemma firstLog_pushedWorlds (w : World) (out : Intent * list Obs) :
  firstLog w out -> pushedWorlds (snd out) = [w] /\ pulls (snd out) = 2%nat.
Proof. intros (r0 & r & ->). split; reflexivity. Qed.

Lemma loopLogs_pushedWorlds (ws : list World) (outs : list (Intent * list Obs)) :
  Forall2 loopLog ws outs ->
  flat_map (fun out => pushedWorlds (snd out)) outs = ws /\
  Forall (fun out => pulls (snd out) = 1%nat) outs.
Proof.
  induction 1 as [|w out ws outs Hlog _ [IHw IHp]]; simpl.
  - split; [reflexivity | constructor].
  - destruct (loopLog_pushedWorlds w out Hlog) as [-> Hp].
    rewrite IHw. split; [reflexivity | constructor; assumption].
Qed.

Lemma updateParamsAll_frame (ws : list World) :
  forall t,
    pass_generator (updateParamsAll ws t) = pass_generator t /\
    target_region (updateParamsAll ws t) = target_region t /\
    robot (updateParamsAll ws t) = robot t /\
    world (updateParamsAll ws t) = last ws (world t).
Proof.
  unfold updateParamsAll.
  induction ws as [|w ws IH]; intros t; [repeat split|].
  destruct (IH (updateParams w t)) as (Hp & Ht & Hr & Hw).
  cbn [fold_left]. rewrite Hp, Ht, Hr, Hw. repeat split.
  simpl world. symmetry. apply last_cons.
Qed.

(** *** More about the tactic *)

(** X1.  Neither [updateParams] nor a resumption changes the target
    region the tactic has: after any number of ticks a robot costs what
    it cost before them, and the tactic's world is the one of the last
    tick.  For a tactic out of the constructor the cost is the distance
    to the region the constructor was given. *)
Theorem target_region_kept (t : CherryPickTactic) (rb : Robot) (ws : list World) :
  robot t = Some rb ->
  (exists outs c,
      ticks ws (start t) = Some (outs, c) /\
      target_region (self c) = target_region t /\
      world (self c) = last ws (world t) /\
      forall r w1 w2,
        fst (calculateRobotCost (self c) r w1) = fst (calculateRobotCost t r w2)) /\
  (forall w region r w1,
      fst (calculateRobotCost (construct w region) r w1) = dist (position r) region).
Proof.
  intros Hr. split; [|reflexivity].
  destruct ws as [|w ws].
  - exists [], (start t). repeat split.
  - destruct (ticks_from_start t rb w ws Hr)
      as (out & outs & c & E & _ & _ & _ & _ & Ht & _ & Hw).
    exists (out :: outs), c. split; [exact E|]. split; [exact Ht|].
    split; [rewrite Hw; symmetry; apply last_cons|].
    intros r w1 w2. unfold calculateRobotCost. simpl. rewrite Ht. reflexivity.
Qed.

(** X2.  The intents the coroutine yields over a sequence of ticks are
    those of the loop body iterated as a function: the move action is
    constructed once and carried from a turn to the next, each turn
    pushes the world of its tick and pulls the best pass once, and what
    the call of line 39 returned has no part in any intent. *)
Theorem ticks_are_turns (t : CherryPickTactic) (rb : Robot) (ws : list World) :
  robot t = Some rb ->
  exists outs c,
    ticks ws (start t) = Some (outs, c) /\
    map fst outs
    = turns ws rb (newMoveAction ROBOT_CLOSE_TO_DEST_THRESHOLD zeroAngle true)
            (background 0 (pass_generator t)) 1.
Proof.
  intros Hr. destruct ws as [|w ws].
  - exists [], (start t). split; reflexivity.
  - destruct (ticks_from_start t rb w ws Hr) as (out & outs & c & E & Hi & _).
    exists (out :: outs), c. split; [exact E | exact Hi].
Qed.

(** X3.  Over a sequence of ticks [setWorld] is called with the world of
    each tick, once, and in the order of the ticks: no world update is
    lost, repeated or reordered on its way to the pass generator. *)
Theorem worlds_pushed_in_order (t : CherryPickTactic) (rb : Robot) (ws : list World) :
  robot t = Some rb ->
  exists outs c,
    ticks ws (start t) = Some (outs, c) /\
    flat_map (fun out => pushedWorlds (snd out)) outs = ws.
Proof.
  intros Hr. destruct ws as [|w ws].
  - exists [], (start t). split; reflexivity.
  - destruct (ticks_from_start t rb w ws Hr)
      as (out & outs & c & E & _ & Hfirst & Hlog & _).
    exists (out :: outs), c. split; [exact E|].
    simpl. rewrite (proj1 (firstLog_pushedWorlds w out Hfirst)).
    rewrite (proj1 (loopLogs_pushedWorlds ws outs Hlog)). reflexivity.
Qed.

(** X4.  The first resumption calls [getBestPassSoFar] twice (line 39 and
    line 45), every later one once; with the calls of [setWorld] the
    tactic has called its pass generator [2 N + 1] times after [N >= 1]
    resumptions. *)
Theorem pulls_per_resumption (t : CherryPickTactic) (rb : Robot)
        (w : World) (ws : list World) :
  robot t = Some rb ->
  exists out outs c,
    ticks (w :: ws) (start t) = Some (out :: outs, c) /\
    pulls (snd out) = 2%nat /\
    Forall (fun o => pulls (snd o) = 1%nat) outs /\
    calls c = (2 * length (w :: ws) + 1)%nat.
Proof.
  intros Hr.
  destruct (ticks_from_start t rb w ws Hr)
    as (out & outs & c & E & _ & Hfirst & Hlog & Hc & _).
  exists out, outs, c. split; [exact E|].
  split; [exact (proj2 (firstLog_pushedWorlds w out Hfirst))|].
  split; [exact (proj2 (loopLogs_pushedWorlds ws outs Hlog))|].
  rewrite Hc. simpl length. lia.
Qed.

(** X5.  Of several calls of [updateParams] between two resumptions only
    the last one counts: the next resumption does what it would have
    done without the earlier ones, so their worlds never reach the pass
    generator. *)
Theorem overwritten_worlds_dropped (c : Coroutine) (mids : list World) (w : World) :
  tick w (mkCoroutine (rest c) (updateParamsAll mids (self c)) (calls c)) = tick w c.
Proof.
  unfold tick. cbn [rest self calls].
  destruct (updateParamsAll_frame mids (self c)) as (Hp & Ht & Hr & _).
  unfold updateParams. rewrite Hp, Ht, Hr. reflexivity.
Qed.

End TacticSteps.

Section TacticStepsRuns.
Import Geom WorldModel Demo.

Lemma target_region_kept_run :
  CherryPick.robot readyTactic = Some aRobot /\
  exists outs c,
    CherryPick.ticks [quietWorld; busyWorld] (CherryPick.start readyTactic)
    = Some (outs, c) /\
    CherryPick.target_region (CherryPick.self c) = theRegion.
Proof.
  split; [reflexivity|].
  destruct (proj1 (target_region_kept readyTactic aRobot [quietWorld; busyWorld] eq_refl))
    as (outs & c & E & Ht & _).
  exists outs, c. split; [exact E | exact Ht].
Defined.

Lemma ticks_are_turns_run :
  CherryPick.robot readyTactic = Some aRobot /\
  exists outs c,
    CherryPick.ticks [quietWorld; busyWorld] (CherryPick.start readyTactic)
    = Some (outs, c) /\
    map fst outs = [(mkPoint (42 # 8) (8 # 8), 0); (mkPoint (42 # 8) (8 # 8), 0)].
Proof.
  split; [reflexivity|].
  destruct (ticks_are_turns readyTactic aRobot [quietWorld; busyWorld] eq_refl)
    as (outs & c & E & Hi).
  exists outs, c. split; [exact E|].
  rewrite Hi. vm_compute. reflexivity.
Defined.

Lemma worlds_pushed_in_order_run :
  CherryPick.robot readyTactic = Some aRobot /\
  exists outs c,
    CherryPick.ticks [quietWorld; busyWorld] (CherryPick.start readyTactic)
    = Some (outs, c) /\
    flat_map (fun out => CherryPick.pushedWorlds (snd out)) outs
    = [quietWorld; busyWorld].
Proof.
  split; [reflexivity|].
  exact (worlds_pushed_in_order readyTactic aRobot [quietWorld; busyWorld] eq_refl).
Defined.

Lemma pulls_per_resumption_run :
  CherryPick.robot readyTactic = Some aRobot /\
  exists out outs c,
    CherryPick.ticks [quietWorld; busyWorld] (CherryPick.start readyTactic)
    = Some (out :: outs, c) /\
    CherryPick.pulls (snd out) = 2%nat /\
    Forall (fun o => CherryPick.pulls (snd o) = 1%nat) outs /\
    CherryPick.calls c = 5%nat.
Proof.
  split; [reflexivity|].
  exact (pulls_per_resumption readyTactic aRobot quietWorld [busyWorld] eq_refl).
Defined.

End TacticStepsRuns.

